(** * result-option: the [Result] and [Option] wrappers of [src/example.ts]

    A shallow embedding of the two classes of [example.ts] and the
    properties their specification states about them.

    The classes are TypeScript, so at run time they handle arbitrary
    JavaScript values: the embedding starts with the fragment of the
    language the two classes use (values, [ToBoolean], [typeof], [!==],
    the [in] operator and property reads on a plain object, [throw]),
    then gives each constructor and accessor as a program over the
    instance's private fields. *)

From Stdlib Require Import ZArith Bool List.
From Stdlib Require Import Floats.SpecFloat.
From stdpp Require Import base option strings gmap.

Open Scope string_scope.

(** ** JavaScript values *)

Module Js.

(** A language value. Numbers are IEEE 754 doubles ([spec_float] has
    the two zeros, the infinities and NaN); a BigInt is an integer;
    objects (arrays and functions included) are known by their
    address, and [callable] tells a function from the rest. *)
Inductive Value : Type :=
| Undefined
| Null
| Boolean (b : bool)
| Number (x : spec_float)
| BigInt (z : Z)
| String (s : string)
| Symbol (id : nat)
| Object (addr : nat) (callable : bool).

(** The abstract operation ToBoolean, used by [!] and by [if]. *)
Definition ToBoolean (v : Value) : bool :=
  match v with
  | Undefined | Null => false
  | Boolean b => b
  | Number (S754_zero _) | Number S754_nan => false
  | Number _ => true
  | BigInt z => negb (Z.eqb z 0)
  | String s => negb (String.eqb s "")
  | Symbol _ => true
  | Object _ _ => true
  end.

(** The [typeof] operator. *)
Definition typeof (v : Value) : string :=
  match v with
  | Undefined => "undefined"
  | Null => "object"
  | Boolean _ => "boolean"
  | Number _ => "number"
  | BigInt _ => "bigint"
  | String _ => "string"
  | Symbol _ => "symbol"
  | Object _ callable => if callable then "function" else "object"
  end.

(** Strict equality [===]: values of different types differ, numbers
    compare as doubles (NaN differs from itself, the two zeros are
    equal), the rest by value or by address. *)
Definition strict_equal (v w : Value) : bool :=
  match v, w with
  | Undefined, Undefined => true
  | Null, Null => true
  | Boolean a, Boolean b => Bool.eqb a b
  | Number x, Number y => SFeqb x y
  | BigInt a, BigInt b => Z.eqb a b
  | String a, String b => String.eqb a b
  | Symbol a, Symbol b => Nat.eqb a b
  | Object a _, Object b _ => Nat.eqb a b
  | _, _ => false
  end.

(** A plain object, as the argument of [new Result(...)]: its
    properties by name. [Object.prototype] has none of the names the
    classes ask for, so own properties decide [in]. *)
Abbreviation Obj := (gmap string Value).

(** ['key' in o] *)
Definition has_property (key : string) (o : Obj) : bool :=
  bool_decide (is_Some (o !! key)).

(** [o.key]: the property's value, [undefined] when there is none. *)
Definition get (o : Obj) (key : string) : Value :=
  default Undefined (o !! key).

(** What a call may throw: [new Error(msg)], or what the engine
    throws when the call stack is exhausted (V8's [RangeError],
    "Maximum call stack size exceeded"). *)
Inductive Exception : Type :=
| Error (msg : string)
| StackExhausted.

(** How an evaluation completes. *)
Inductive Completion (A : Type) : Type :=
| Normal (a : A)
| Throw (e : Exception).
Arguments Normal {A} a.
Arguments Throw {A} e.

(** A method body: it runs on the private fields [F] of [this],
    completes, and leaves the fields as they are at that point. *)
Definition Method (F A : Type) : Type := F -> Completion A * F.

Definition ret {F A} (a : A) : Method F A := fun this => (Normal a, this).

Definition throw {F A} (e : Exception) : Method F A :=
  fun this => (Throw e, this).

Definition bind {F A B} (m : Method F A) (k : A -> Method F B) : Method F B :=
  fun this =>
    match m this with
    | (Normal a, this') => k a this'
    | (Throw e, this') => (Throw e, this')
    end.

(** [this.#f] and [this.#f = v], for a field given by its projection
    and its update. *)
Definition read {F A} (proj : F -> A) : Method F A :=
  fun this => (Normal (proj this), this).

Definition write {F A} (upd : A -> F -> F) (a : A) : Method F unit :=
  fun this => (Normal tt, upd a this).

(** [new C(args)]: the field initialisers, then the constructor's
    body; the instance when the body completes normally. *)
Definition new {F} (init : F) (body : Method F unit) : Completion F :=
  match body init with
  | (Normal _, this) => Normal this
  | (Throw e, _) => Throw e
  end.

(** The completion and the fields a call leaves. *)
Definition result {F A} (m : Method F A) (this : F) : Completion A := fst (m this).
Definition after {F A} (m : Method F A) (this : F) : F := snd (m this).

(** A caller making one call after the other on the same instance,
    keeping what each call completes with (a [try] around each). *)
Fixpoint calls {F A} (ms : list (Method F A)) (this : F)
  : list (Completion A) * F :=
  match ms with
  | [] => ([], this)
  | m :: ms' =>
      let '(c, this') := m this in
      let '(cs, this'') := calls ms' this' in
      (c :: cs, this'')
  end.

End Js.

Declare Scope js_scope.
Delimit Scope js_scope with js.
Notation "x <- m ;; k" := (Js.bind m (fun x => k))
  (at level 100, m at next level, right associativity) : js_scope.
Notation "m ;; k" := (Js.bind m (fun _ => k))
  (at level 100, right associativity) : js_scope.
Notation "'when' c 'do' m" := (if c then m else Js.ret tt)
  (at level 99, c at level 98) : js_scope.

(** ** class Result *)

Module Result.
Import Js.
Local Open Scope js_scope.

(** The private fields [#isOK], [#payload], [#error], [#message]. *)
Record Fields : Type := mkFields {
  f_isOK : bool;
  f_payload : Value;
  f_error : Value;
  f_message : Value
}.

Definition set_isOK (b : bool) (r : Fields) : Fields :=
  mkFields b (f_payload r) (f_error r) (f_message r).
Definition set_payload (v : Value) (r : Fields) : Fields :=
  mkFields (f_isOK r) v (f_error r) (f_message r).
Definition set_error (v : Value) (r : Fields) : Fields :=
  mkFields (f_isOK r) (f_payload r) v (f_message r).
Definition set_message (v : Value) (r : Fields) : Fields :=
  mkFields (f_isOK r) (f_payload r) (f_error r) v.

(** The field initialisers: [#isOK = false], [#message = ''], the
    other two undefined. *)
Definition init : Fields := mkFields false Undefined Undefined (String "").

(** [constructor(args)] *)
Definition constructor (args : Obj) : Method Fields unit :=
  if has_property "payload" args then
    write set_payload (get args "payload") ;;
    write set_isOK true
  else
    (when negb (has_property "error" args) do
       throw (Error "To create a failed Result provide error")) ;;
    write set_error (get args "error") ;;
    if has_property "message" args
    then write set_message (get args "message")
    else write set_message (String "No message has been provided").

(** [new Result(args)] *)
Definition construct (args : Obj) : Completion Fields :=
  new init (constructor args).

(** [get isOK()] *)
Definition isOK : Method Fields bool := read f_isOK.

(** [get payload()] *)
Definition payload : Method Fields Value :=
  ok <- read f_isOK ;;
  p <- read f_payload ;;
  if negb ok || negb (ToBoolean p)
  then throw (Error "Payload is not available")
  else read f_payload.

(** [get error()] *)
Definition error : Method Fields Value :=
  ok <- read f_isOK ;;
  e <- read f_error ;;
  if ok || negb (ToBoolean e)
  then throw (Error "No error information is available")
  else read f_error.

(** [get message()]. Its guard reads [this.message], the accessor
    itself, not the field [this.#message]: when [#isOK] is false the
    accessor calls itself. [stack] is the number of nested calls the
    engine's call stack still has room for; the call that exceeds it
    throws the engine's error. *)
Fixpoint message (stack : nat) : Method Fields Value :=
  ok <- read f_isOK ;;
  no_message <-
    (if ok then ret true
     else match stack with
          | O => throw StackExhausted
          | S stack' => m <- message stack' ;; ret (negb (ToBoolean m))
          end) ;;
  if (no_message : bool)
  then throw (Error "No error message is available")
  else read f_message.

(** The accessors by name, each as a call that completes with a
    value; a call of [message] comes with the room the stack has. *)
Variant Accessor : Type :=
| get_isOK
| get_payload
| get_error
| get_message (stack : nat).

Definition access (a : Accessor) : Method Fields Value :=
  match a with
  | get_isOK => ok <- isOK ;; ret (Boolean ok)
  | get_payload => payload
  | get_error => error
  | get_message stack => message stack
  end.

(** The inputs the specification names: [{payload: p}],
    [{error: e, message: m}] and [{error: e}]. *)
Definition success_input (p : Value) : Obj := {[ "payload" := p ]}.
Definition failure_input (e : Value) (m : string) : Obj :=
  {[ "error" := e; "message" := String m ]}.
Definition failure_input_no_message (e : Value) : Obj := {[ "error" := e ]}.

(** The message a failed Result stores: the input's, or the default. *)
Definition stored_message (args : Obj) : Value :=
  default (String "No message has been provided") (args !! "message").

(** What [new Result(args)] completes with, by the keys of [args]. *)
Variant Constructed (args : Obj) : Completion Fields -> Prop :=
| built_success p :
    args !! "payload" = Some p ->
    Constructed args (Normal (mkFields true p Undefined (String "")))
| built_failure e :
    args !! "payload" = None -> args !! "error" = Some e ->
    Constructed args (Normal (mkFields false Undefined e (stored_message args)))
| built_nothing :
    args !! "payload" = None -> args !! "error" = None ->
    Constructed args (Throw (Error "To create a failed Result provide error")).

(** The specification's sentences, as it words them.
    [{payload: p}] gives an instance that is OK and gives [p] back. *)
Definition payload_round_trip (p : Value) : Prop :=
  exists r, construct (success_input p) = Normal r /\
    result isOK r = Normal true /\ result payload r = Normal p.

(** [{error: e, message: m}] gives an instance that is not OK and
    gives [e] back. *)
Definition error_round_trip (e : Value) (m : string) : Prop :=
  exists r, construct (failure_input e m) = Normal r /\
    result isOK r = Normal false /\ result error r = Normal e.

(** [{error: e, message: m}] gives [m] back, with room [stack] for
    the call. *)
Definition message_round_trip (stack : nat) (e : Value) (m : string) : Prop :=
  exists r, construct (failure_input e m) = Normal r /\
    result (message stack) r = Normal (String m).

(** A side of the instance is populated when a field of it holds
    something else than its initialiser; a value is absent when it is
    [undefined] or [null], as [Option] reads it. *)
Definition payload_populated (r : Fields) : Prop := f_payload r <> Undefined.
Definition failure_populated (r : Fields) : Prop :=
  f_error r <> Undefined \/ f_message r <> String "".
Definition absent (v : Value) : Prop := v = Undefined \/ v = Null.

(** "Exactly one of {payload} or {error, message} is populated, and a
    Success holds a populated, non-absent payload." *)
Definition one_side_populated (r : Fields) : Prop :=
  (payload_populated r /\ ~ failure_populated r) \/
  (~ payload_populated r /\ failure_populated r).
Definition populated_invariant (r : Fields) : Prop :=
  one_side_populated r /\
  (f_isOK r = true -> payload_populated r /\ ~ absent (f_payload r)).

End Result.

(** ** class Option *)

Module Option.
Import Js.
Local Open Scope js_scope.

(** The private fields [#isSome] and [#payload]. *)
Record Fields : Type := mkFields {
  f_isSome : bool;
  f_payload : Value
}.

Definition set_isSome (b : bool) (o : Fields) : Fields :=
  mkFields b (f_payload o).
Definition set_payload (v : Value) (o : Fields) : Fields :=
  mkFields (f_isSome o) v.

(** The field initialisers: [#isSome = false], [#payload] undefined. *)
Definition init : Fields := mkFields false Undefined.

(** [constructor(payload)] *)
Definition constructor (payload : Value) : Method Fields unit :=
  write set_payload payload ;;
  when negb (String.eqb (typeof payload) "undefined")
       && negb (strict_equal payload Null)
  do write set_isSome true.

(** [new Option(payload)] *)
Definition construct (payload : Value) : Completion Fields :=
  new init (constructor payload).

(** [get isSome()] *)
Definition isSome : Method Fields bool := read f_isSome.

(** [get payload()] *)
Definition payload : Method Fields Value :=
  some <- read f_isSome ;;
  if negb some
  then throw (Error "No payload provided or null")
  else read f_payload.

(** [unwrap()] *)
Definition unwrap : Method Fields Value := read f_payload.

(** The accessors by name, each as a call that completes with a value. *)
Variant Accessor : Type :=
| get_isSome
| get_payload
| call_unwrap.

Definition access (a : Accessor) : Method Fields Value :=
  match a with
  | get_isSome => some <- isSome ;; ret (Boolean some)
  | get_payload => payload
  | call_unwrap => unwrap
  end.

End Option.

(** ** What [new Result(args)] builds *)

Module ResultFacts.
Import Js Result.

(** ['key' in args] is the presence of the key. *)
Lemma has_property_Some (args : Obj) key v :
  args !! key = Some v -> has_property key args = true.
Proof.
  intros H. unfold has_property. apply bool_decide_eq_true_2. by exists v.
Qed.

Lemma has_property_None (args : Obj) key :
  args !! key = None -> has_property key args = false.
Proof.
  intros H. unfold has_property. apply bool_decide_eq_false_2.
  rewrite H. by intros [v Hv].
Qed.

Lemma get_Some (args : Obj) key v : args !! key = Some v -> get args key = v.
Proof. unfold get. by intros ->. Qed.

(** A [payload] key gives the success shape, whatever else is there. *)
Lemma construct_success (args : Obj) p :
  args !! "payload" = Some p ->
  construct args = Normal (mkFields true p Undefined (String "")).
Proof.
  intros Hp. unfold construct, constructor.
  rewrite (has_property_Some _ _ _ Hp), (get_Some _ _ _ Hp). reflexivity.
Qed.

(** No [payload] key and an [error] key give the failure shape. *)
Lemma construct_failure (args : Obj) e :
  args !! "payload" = None -> args !! "error" = Some e ->
  construct args = Normal (mkFields false Undefined e (stored_message args)).
Proof.
  intros Hp He. unfold construct, constructor, stored_message.
  rewrite (has_property_None _ _ Hp), (has_property_Some _ _ _ He), (get_Some _ _ _ He).
  destruct (args !! "message") as [m|] eqn:Hm.
  - rewrite (has_property_Some _ _ _ Hm), (get_Some _ _ _ Hm). reflexivity.
  - rewrite (has_property_None _ _ Hm). reflexivity.
Qed.

(** Neither key: the constructor throws. *)
Lemma construct_neither (args : Obj) :
  args !! "payload" = None -> args !! "error" = None ->
  construct args = Throw (Error "To create a failed Result provide error").
Proof.
  intros Hp He. unfold construct, constructor.
  rewrite (has_property_None _ _ Hp), (has_property_None _ _ He). reflexivity.
Qed.

(** The three cases cover every input. *)
Lemma construct_cases (args : Obj) : Constructed args (construct args).
Proof.
  destruct (args !! "payload") as [p|] eqn:Hp.
  - rewrite (construct_success _ _ Hp). by constructor.
  - destruct (args !! "error") as [e|] eqn:He.
    + rewrite (construct_failure _ _ Hp He). by constructor.
    + rewrite (construct_neither _ Hp He). by constructor.
Qed.

(** The accessors on given fields. None of them assigns a field. *)
Lemma isOK_run this : isOK this = (Normal (f_isOK this), this).
Proof. reflexivity. Qed.

Lemma payload_run this :
  payload this =
    (if f_isOK this && ToBoolean (f_payload this)
     then Normal (f_payload this)
     else Throw (Error "Payload is not available"), this).
Proof.
  unfold payload, bind, read, throw.
  destruct (f_isOK this), (ToBoolean (f_payload this)); reflexivity.
Qed.

Lemma error_run this :
  error this =
    (if negb (f_isOK this) && ToBoolean (f_error this)
     then Normal (f_error this)
     else Throw (Error "No error information is available"), this).
Proof.
  unfold error, bind, read, throw.
  destruct (f_isOK this), (ToBoolean (f_error this)); reflexivity.
Qed.

(** [message] on a success: the guard stops at [#isOK]. On a failure
    the guard calls the accessor again, and again, until the stack
    is exhausted, whatever room there was. *)
Lemma message_run stack this :
  message stack this =
    (if f_isOK this
     then Throw (Error "No error message is available")
     else Throw StackExhausted, this).
Proof.
  destruct this as [[|] p e m].
  - destruct stack; reflexivity.
  - induction stack as [|stack IH]; [reflexivity|].
    change (message (S stack)) with
      (bind (read f_isOK) (fun ok =>
         bind (if ok then ret true
               else bind (message stack) (fun m => ret (negb (ToBoolean m))))
           (fun no_message : bool =>
              if no_message
              then throw (Error "No error message is available")
              else read f_message))).
    cbn [f_isOK] in IH. unfold bind, read. cbn [f_isOK]. rewrite IH.
    reflexivity.
Qed.

End ResultFacts.

(** ** The specification's inputs, key by key *)

Module InputFacts.
Import Js Result.

Lemma success_input_payload p : success_input p !! "payload" = Some p.
Proof. apply lookup_singleton_eq. Qed.

Lemma failure_input_payload e m : failure_input e m !! "payload" = None.
Proof. unfold failure_input. by simplify_map_eq. Qed.

Lemma failure_input_error e m : failure_input e m !! "error" = Some e.
Proof. unfold failure_input. by simplify_map_eq. Qed.

Lemma failure_input_message e m :
  stored_message (failure_input e m) = String m.
Proof. unfold stored_message, failure_input. by simplify_map_eq. Qed.

Lemma failure_input_no_message_payload e :
  failure_input_no_message e !! "payload" = None.
Proof. unfold failure_input_no_message. by simplify_map_eq. Qed.

Lemma failure_input_no_message_error e :
  failure_input_no_message e !! "error" = Some e.
Proof. apply lookup_singleton_eq. Qed.

Lemma failure_input_no_message_message e :
  stored_message (failure_input_no_message e)
  = String "No message has been provided".
Proof. unfold stored_message, failure_input_no_message. by simplify_map_eq. Qed.

Lemma construct_success_input p :
  construct (success_input p) = Normal (mkFields true p Undefined (String "")).
Proof. apply ResultFacts.construct_success, success_input_payload. Qed.

Lemma construct_failure_input e m :
  construct (failure_input e m) = Normal (mkFields false Undefined e (String m)).
Proof.
  rewrite <- failure_input_message with (e := e).
  apply ResultFacts.construct_failure;
    [apply failure_input_payload | apply failure_input_error].
Qed.

Lemma construct_failure_input_no_message e :
  construct (failure_input_no_message e)
  = Normal (mkFields false Undefined e (String "No message has been provided")).
Proof.
  rewrite <- failure_input_no_message_message with (e := e).
  apply ResultFacts.construct_failure;
    [apply failure_input_no_message_payload
    | apply failure_input_no_message_error].
Qed.

End InputFacts.

(** ** Option: what the constructor builds, and the accessors *)

Module OptionFacts.
Import Js Option.

(** The constructor's test, [typeof payload !== 'undefined' &&
    payload !== null], is false on [undefined] and [null] only. *)
Lemma present_test (v : Value) :
  negb (String.eqb (typeof v) "undefined") && negb (strict_equal v Null)
  = match v with Undefined | Null => false | _ => true end.
Proof. destruct v as [| | | | | | |addr [|]]; reflexivity. Qed.

Lemma construct_run (v : Value) :
  construct v
  = Normal (mkFields match v with Undefined | Null => false | _ => true end v).
Proof.
  unfold construct, constructor, new, bind, write. rewrite present_test.
  destruct v as [| | | | | | |addr [|]]; reflexivity.
Qed.

Lemma isSome_run this : isSome this = (Normal (f_isSome this), this).
Proof. reflexivity. Qed.

Lemma Option_payload_run this :
  payload this =
    (if f_isSome this then Normal (f_payload this)
     else Throw (Error "No payload provided or null"), this).
Proof. unfold payload, bind, read, throw. by destruct (f_isSome this). Qed.

Lemma unwrap_run this : unwrap this = (Normal (f_payload this), this).
Proof. reflexivity. Qed.

(** No accessor assigns a field. *)
Lemma Option_access_readonly a this : after (access a) this = this.
Proof.
  destruct a; unfold after, access; [reflexivity| |reflexivity].
  by rewrite Option_payload_run.
Qed.

End OptionFacts.

Module CallFacts.
Import Js.

(** Calls that leave the instance as it is can be repeated at will:
    each completes as it would have as the first call. *)
Lemma calls_readonly {F A} (ms : list (Method F A)) :
  Forall (fun m => forall this, after m this = this) ms ->
  forall this, calls ms this = (map (fun m => result m this) ms, this).
Proof.
  induction 1 as [|m ms Hm _ IH]; intros this; [reflexivity|].
  cbn [calls map]. specialize (Hm this). unfold after, result in *.
  destruct (m this) as [c this']. cbn [fst snd] in *. subst this'.
  rewrite IH. reflexivity.
Qed.

Lemma Result_access_readonly a this : after (Result.access a) this = this.
Proof.
  destruct a as [| | |stack]; unfold after, Result.access; [reflexivity|..].
  - by rewrite ResultFacts.payload_run.
  - by rewrite ResultFacts.error_run.
  - by rewrite ResultFacts.message_run.
Qed.

End CallFacts.

(** ** Result: the specification's claims *)

Import Js.

(** The accessors' equations, for rewriting. *)
Ltac run_accessors :=
  unfold result, after;
  rewrite ?ResultFacts.isOK_run, ?ResultFacts.payload_run,
    ?ResultFacts.error_run, ?ResultFacts.message_run;
  cbn [fst snd Result.f_isOK Result.f_payload Result.f_error Result.f_message
       andb negb].

(** C1, in the code: the [payload] accessor tests its field with
    [!this.#payload], which is true of every falsy value and not of
    [undefined] alone. So [new Result({payload: 0})], and the same with
    [''] or [false], is built and is OK, and its [payload] throws
    ["Payload is not available"] instead of giving the value back. *)
Theorem Result_payload_falsy_throws :
  Forall
    (fun p =>
       (exists r, Result.construct (Result.success_input p) = Normal r /\
          result Result.isOK r = Normal true /\
          result Result.payload r = Throw (Error "Payload is not available")) /\
       ~ Result.payload_round_trip p)
    [Number (S754_zero false); String ""; Boolean false].
Proof.
  repeat constructor.
  all: try (eexists; split; [apply InputFacts.construct_success_input|];
            by run_accessors).
  all: intros (r & Hr & _ & Hp);
    rewrite InputFacts.construct_success_input in Hr;
    injection Hr as <-; revert Hp; run_accessors; discriminate.
Qed.

(** C2, in the code: on every failed Result, with a message given or
    not, the [message] accessor never returns the message. Its guard
    calls the accessor itself, so whatever room the call stack has, the
    call ends in the engine's stack-exhaustion error. *)
Theorem Result_message_of_failure_overflows (stack : nat) (e : Value) (m : string) :
  (exists r, Result.construct (Result.failure_input e m) = Normal r /\
     result (Result.message stack) r = Throw StackExhausted) /\
  (exists r, Result.construct (Result.failure_input_no_message e) = Normal r /\
     result (Result.message stack) r = Throw StackExhausted) /\
  ~ Result.message_round_trip stack e m.
Proof.
  split; [|split].
  - eexists. split; [apply InputFacts.construct_failure_input|].
    by run_accessors.
  - eexists. split; [apply InputFacts.construct_failure_input_no_message|].
    by run_accessors.
  - intros (r & Hr & Hm). rewrite InputFacts.construct_failure_input in Hr.
    injection Hr as <-. revert Hm. run_accessors. discriminate.
Qed.

(** C3, in the code: the [error] accessor tests its field with
    [!this.#error], which is true of every falsy value and not of
    [undefined] alone. So [new Result({error: 0, message: 'm'})], and
    the same with the error [''], is built and is not OK, and its
    [error] throws ["No error information is available"] instead of
    giving the error back. *)
Theorem Result_error_falsy_throws :
  Forall
    (fun e =>
       (exists r, Result.construct (Result.failure_input e "m") = Normal r /\
          result Result.isOK r = Normal false /\
          result Result.error r
          = Throw (Error "No error information is available")) /\
       ~ Result.error_round_trip e "m")
    [Number (S754_zero false); String ""].
Proof.
  repeat constructor.
  all: try (eexists; split; [apply InputFacts.construct_failure_input|];
            by run_accessors).
  all: intros (r & Hr & _ & He);
    rewrite InputFacts.construct_failure_input in Hr;
    injection Hr as <-; revert He; run_accessors; discriminate.
Qed.

(** C4: on a failed Result, [payload] throws an Error; on a successful
    one, [error] and [message] throw an Error; the throw is the call's
    own completion, and the fields are left as they were. *)
Theorem Result_wrong_variant_access (this : Result.Fields) (stack : nat) :
  (Result.f_isOK this = false ->
     Result.payload this = (Throw (Error "Payload is not available"), this)) /\
  (Result.f_isOK this = true ->
     Result.error this
       = (Throw (Error "No error information is available"), this) /\
     Result.message stack this
       = (Throw (Error "No error message is available"), this)).
Proof.
  rewrite ResultFacts.payload_run, ResultFacts.error_run, ResultFacts.message_run.
  split; intros ->; auto.
Qed.

Lemma Result_wrong_variant_access_witness :
  Result.payload (Result.mkFields false Undefined (String "E") (String "m"))
    = (Throw (Error "Payload is not available"),
       Result.mkFields false Undefined (String "E") (String "m")) /\
  Result.error (Result.mkFields true (String "p") Undefined (String ""))
    = (Throw (Error "No error information is available"),
       Result.mkFields true (String "p") Undefined (String "")) /\
  Result.message 7 (Result.mkFields true (String "p") Undefined (String ""))
    = (Throw (Error "No error message is available"),
       Result.mkFields true (String "p") Undefined (String "")).
Proof.
  split.
  - apply (Result_wrong_variant_access
             (Result.mkFields false Undefined (String "E") (String "m")) 0).
    reflexivity.
  - apply (Result_wrong_variant_access
             (Result.mkFields true (String "p") Undefined (String "")) 7).
    reflexivity.
Defined.

(** C5: construction throws, and throws
    ["To create a failed Result provide error"], exactly when the input
    has neither a [payload] nor an [error] key; with either key it
    returns an instance. *)
Theorem Result_construct_fails_iff (args : Obj) :
  (Result.construct args
     = Throw (Error "To create a failed Result provide error")
   <-> args !! "payload" = None /\ args !! "error" = None) /\
  (is_Some (args !! "payload") \/ is_Some (args !! "error") ->
   exists r, Result.construct args = Normal r) /\
  (forall exn, Result.construct args = Throw exn ->
   exn = Error "To create a failed Result provide error").
Proof.
  destruct (ResultFacts.construct_cases args) as [p Hp|e Hp He|Hp He].
  - repeat split; try discriminate; eauto.
    intros [Hp' _]. rewrite Hp in Hp'. discriminate.
  - repeat split; try discriminate; eauto.
    intros [_ He']. rewrite He in He'. discriminate.
  - repeat split; auto.
    + intros [[v Hv]|[v Hv]]; congruence.
    + intros exn [= <-]. reflexivity.
Qed.

Lemma Result_construct_fails_iff_witness :
  Result.construct ∅ = Throw (Error "To create a failed Result provide error").
Proof.
  apply (Result_construct_fails_iff ∅). split; apply lookup_empty.
Defined.

(** ** Option: the specification's claims *)

Ltac run_option_accessors :=
  unfold result, after;
  rewrite ?OptionFacts.isSome_run, ?OptionFacts.Option_payload_run,
    ?OptionFacts.unwrap_run;
  cbn [fst snd Option.f_isSome Option.f_payload].

(** C6: for every value [v] other than [undefined] and [null], falsy
    ones included, [new Option(v)] has [isSome] true, and [payload] and
    [unwrap()] both return [v]. *)
Theorem Option_of_present (v : Value) :
  v <> Undefined -> v <> Null ->
  exists o, Option.construct v = Normal o /\
    result Option.isSome o = Normal true /\
    result Option.payload o = Normal v /\
    result Option.unwrap o = Normal v.
Proof.
  intros Hu Hn. eexists. split; [apply OptionFacts.construct_run|].
  run_option_accessors.
  destruct v; try contradiction; repeat split.
Qed.

Lemma Option_of_present_witness :
  (exists o, Option.construct (Number (S754_zero false)) = Normal o /\
     result Option.isSome o = Normal true /\
     result Option.payload o = Normal (Number (S754_zero false)) /\
     result Option.unwrap o = Normal (Number (S754_zero false))) /\
  (exists o, Option.construct (String "") = Normal o /\
     result Option.isSome o = Normal true /\
     result Option.payload o = Normal (String "") /\
     result Option.unwrap o = Normal (String "")).
Proof.
  split.
  - apply (Option_of_present (Number (S754_zero false))); discriminate.
  - apply (Option_of_present (String "")); discriminate.
Defined.

(** C7: for [undefined] and for [null], [new Option(v)] has [isSome]
    false, [payload] throws ["No payload provided or null"] and
    [unwrap()] returns the very sentinel; and for every input, present
    or absent, the Option is built and [unwrap()] returns the input. *)
Theorem Option_of_absent :
  (forall v : Value, v = Undefined \/ v = Null ->
   exists o, Option.construct v = Normal o /\
     result Option.isSome o = Normal false /\
     result Option.payload o = Throw (Error "No payload provided or null") /\
     result Option.unwrap o = Normal v) /\
  (forall v : Value,
   exists o, Option.construct v = Normal o /\ result Option.unwrap o = Normal v).
Proof.
  split.
  - intros v Hv. eexists. split; [apply OptionFacts.construct_run|].
    run_option_accessors. destruct Hv as [-> | ->]; repeat split.
  - intros v. eexists. split; [apply OptionFacts.construct_run|].
    by run_option_accessors.
Qed.

Lemma Option_of_absent_witness :
  exists o, Option.construct Null = Normal o /\
    result Option.isSome o = Normal false /\
    result Option.payload o = Throw (Error "No payload provided or null") /\
    result Option.unwrap o = Normal Null.
Proof.
  apply (proj1 Option_of_absent Null). by right.
Defined.

(** ** Both classes: the accessors only read *)

(** C8: on any Result and on any Option, a sequence of accessor calls,
    in any order and with repeats, leaves the fields as they were (so
    [isOK] and [isSome] keep their value), and every call completes
    exactly as that accessor completes on the instance as constructed:
    with the same value, or with the same throw. For [message], the
    completion does not depend on the room the call stack has. *)
Theorem accessors_only_read :
  (forall (this : Result.Fields) (l : list Result.Accessor),
     calls (map Result.access l) this
     = (map (fun a => result (Result.access a) this) l, this)) /\
  (forall (this : Result.Fields) (stack stack' : nat),
     result (Result.message stack) this = result (Result.message stack') this) /\
  (forall (this : Option.Fields) (l : list Option.Accessor),
     calls (map Option.access l) this
     = (map (fun a => result (Option.access a) this) l, this)).
Proof.
  split; [|split].
  - intros this l. rewrite CallFacts.calls_readonly, map_map; [reflexivity|].
    apply Forall_map, Forall_forall. intros a _.
    apply CallFacts.Result_access_readonly.
  - intros this stack stack'. unfold result.
    by rewrite !ResultFacts.message_run.
  - intros this l. rewrite CallFacts.calls_readonly, map_map; [reflexivity|].
    apply Forall_map, Forall_forall. intros a _.
    apply OptionFacts.Option_access_readonly.
Qed.

(** ** Result: what construction leaves in the fields *)

(** C9, as stated, fails: [new Result({payload: undefined})] is built
    and is OK, yet no side of it is populated: its payload is
    [undefined], its error is [undefined] and its message is empty. *)
Lemma Result_success_may_hold_nothing :
  exists r, Result.construct (Result.success_input Undefined) = Normal r /\
    Result.f_isOK r = true /\ ~ Result.populated_invariant r.
Proof.
  eexists. split; [apply InputFacts.construct_success_input|].
  split; [reflexivity|].
  intros [[[Hp _]|[_ [He|Hm]]] _]; [apply Hp | apply He | apply Hm]; reflexivity.
Qed.

(** C9 (amended): an instance that construction returns never has both
    sides populated. When [isOK] is true the input had a [payload] key,
    the payload field holds that property's value as given, the error
    is [undefined] and the message empty; when [isOK] is false the
    input had an [error] key and no [payload] key, the payload is
    [undefined], the error field holds that property's value and the
    message field the input's message or the default. A successful
    instance holds a populated, non-absent payload whenever the input's
    payload value is not absent. *)
Theorem Result_construct_populates (args : Obj) (r : Result.Fields) :
  Result.construct args = Normal r ->
  ~ (Result.payload_populated r /\ Result.failure_populated r) /\
  (if Result.f_isOK r
   then is_Some (args !! "payload") /\
        Result.f_payload r = get args "payload" /\
        Result.f_error r = Undefined /\
        Result.f_message r = String ""
   else args !! "payload" = None /\ is_Some (args !! "error") /\
        Result.f_payload r = Undefined /\
        Result.f_error r = get args "error" /\
        Result.f_message r = Result.stored_message args) /\
  (Result.f_isOK r = true -> ~ Result.absent (get args "payload") ->
   Result.payload_populated r /\ ~ Result.absent (Result.f_payload r)).
Proof.
  intros Hr.
  destruct (ResultFacts.construct_cases args) as [p Hp|e Hp He|Hp He];
    [injection Hr as <- .. | discriminate Hr];
    unfold Result.payload_populated, Result.failure_populated;
    cbn [Result.f_isOK Result.f_payload Result.f_error Result.f_message].
  - rewrite (ResultFacts.get_Some _ _ _ Hp). split; [|split].
    + intros [_ [He|Hm]]; [apply He | apply Hm]; reflexivity.
    + repeat split; eauto.
    + intros _ Hpresent. split; [|exact Hpresent].
      intros ->. apply Hpresent. by left.
  - rewrite (ResultFacts.get_Some _ _ _ He). split; [|split].
    + intros [Hq _]. by apply Hq.
    + repeat split; eauto.
    + discriminate.
Qed.

Lemma Result_construct_populates_witness :
  ~ (Result.payload_populated (Result.mkFields true (String "p") Undefined (String "")) /\
     Result.failure_populated (Result.mkFields true (String "p") Undefined (String ""))) /\
  Result.payload_populated (Result.mkFields true (String "p") Undefined (String "")).
Proof.
  pose proof (Result_construct_populates
                (Result.success_input (String "p")) _
                (InputFacts.construct_success_input (String "p")))
    as (Hnot & _ & Hpop).
  split; [exact Hnot|].
  apply Hpop; [reflexivity|].
  unfold get. rewrite InputFacts.success_input_payload.
  intros [H|H]; discriminate H.
Defined.

(** C10: an input with both a [payload] and an [error] key is taken as
    a success: the instance is OK and holds the payload, the error and
    message fields keep their initial values, and [error] and [message]
    throw. *)
Theorem Result_both_keys_is_success (args : Obj) (p e : Value) :
  args !! "payload" = Some p -> args !! "error" = Some e ->
  exists r, Result.construct args = Normal r /\
    result Result.isOK r = Normal true /\
    Result.f_payload r = p /\
    Result.f_error r = Undefined /\
    Result.f_message r = String "" /\
    result Result.error r = Throw (Error "No error information is available") /\
    forall stack,
      result (Result.message stack) r
      = Throw (Error "No error message is available").
Proof.
  intros Hp _. eexists. split; [apply (ResultFacts.construct_success _ _ Hp)|].
  run_accessors. repeat split.
  intros stack. by run_accessors.
Qed.

Lemma Result_both_keys_is_success_witness :
  exists r,
    Result.construct {[ "payload" := Number (S754_zero false);
                        "error" := String "E";
                        "message" := String "m" ]} = Normal r /\
    result Result.isOK r = Normal true /\
    Result.f_payload r = Number (S754_zero false) /\
    Result.f_error r = Undefined /\
    Result.f_message r = String "" /\
    result Result.error r = Throw (Error "No error information is available") /\
    forall stack,
      result (Result.message stack) r
      = Throw (Error "No error message is available").
Proof.
  apply (Result_both_keys_is_success _ (Number (S754_zero false)) (String "E"));
    reflexivity.
Defined.

(** ** Further properties of the two classes *)

(** X1: on an instance built from any input, [payload] returns a value
    exactly when the input has a [payload] key holding that value and
    the value is truthy; whatever else it does is the throw of
    ["Payload is not available"]. *)
Theorem Result_payload_returns_iff (args : Obj) (r : Result.Fields) (v : Value) :
  Result.construct args = Normal r ->
  (result Result.payload r = Normal v
   <-> args !! "payload" = Some v /\ ToBoolean v = true) /\
  (forall exn, result Result.payload r = Throw exn ->
   exn = Error "Payload is not available").
Proof.
  intros Hr.
  destruct (ResultFacts.construct_cases args) as [p Hp|e Hp He|Hp He];
    [injection Hr as <- .. | discriminate Hr]; run_accessors.
  - destruct (ToBoolean p) eqn:Hb; split.
    + split; [intros [= <-]; by rewrite Hp | intros [Hv _]; congruence].
    + discriminate.
    + split; [discriminate | intros [Hv Hb']; congruence].
    + by intros exn [= <-].
  - split.
    + split; [discriminate | intros [Hv _]; congruence].
    + by intros exn [= <-].
Qed.

Lemma Result_payload_returns_iff_witness :
  result Result.payload (Result.mkFields true (Number (S754_infinity false))
                           Undefined (String ""))
  = Normal (Number (S754_infinity false)).
Proof.
  apply (Result_payload_returns_iff
           {[ "payload" := Number (S754_infinity false); "note" := Null ]}
           _ (Number (S754_infinity false)));
    [reflexivity | split; reflexivity].
Defined.

(** X2: on an instance built from any input, [error] returns a value
    exactly when the input has no [payload] key, has an [error] key
    holding that value, and the value is truthy; whatever else it does
    is the throw of ["No error information is available"]. *)
Theorem Result_error_returns_iff (args : Obj) (r : Result.Fields) (v : Value) :
  Result.construct args = Normal r ->
  (result Result.error r = Normal v
   <-> args !! "payload" = None /\ args !! "error" = Some v /\
       ToBoolean v = true) /\
  (forall exn, result Result.error r = Throw exn ->
   exn = Error "No error information is available").
Proof.
  intros Hr.
  destruct (ResultFacts.construct_cases args) as [p Hp|e Hp He|Hp He];
    [injection Hr as <- .. | discriminate Hr]; run_accessors.
  - split.
    + split; [discriminate | intros [Hv _]; congruence].
    + by intros exn [= <-].
  - destruct (ToBoolean e) eqn:Hb; split.
    + split; [intros [= <-]; by rewrite He | intros (_ & Hv & _); congruence].
    + discriminate.
    + split; [discriminate | intros (_ & Hv & Hb'); congruence].
    + by intros exn [= <-].
Qed.

Lemma Result_error_returns_iff_witness :
  result Result.error (Result.mkFields false Undefined (Object 4 false)
                         (String "No message has been provided"))
  = Normal (Object 4 false).
Proof.
  apply (Result_error_returns_iff
           (Result.failure_input_no_message (Object 4 false))
           _ (Object 4 false));
    [reflexivity | repeat split; reflexivity].
Defined.

(** X3: on any instance, [payload] and [error] never both return. When
    [payload] returns, [#isOK] is true, the value is truthy (so it is
    neither [undefined] nor [null]) and [error] throws; when [error]
    returns, [#isOK] is false, the value is truthy and [payload]
    throws. *)
Theorem Result_accessors_exclusive (this : Result.Fields) (v : Value) :
  (result Result.payload this = Normal v ->
   Result.f_isOK this = true /\ ToBoolean v = true /\
   v <> Undefined /\ v <> Null /\
   result Result.error this
   = Throw (Error "No error information is available")) /\
  (result Result.error this = Normal v ->
   Result.f_isOK this = false /\ ToBoolean v = true /\
   v <> Undefined /\ v <> Null /\
   result Result.payload this = Throw (Error "Payload is not available")).
Proof.
  run_accessors. destruct this as [[|] p e m]; cbn; split; try discriminate.
  - destruct (ToBoolean p) eqn:Hb; [|discriminate].
    intros [= <-]. repeat split; trivial; intros ->; discriminate Hb.
  - destruct (ToBoolean e) eqn:Hb; [|discriminate].
    intros [= <-]. repeat split; trivial; intros ->; discriminate Hb.
Qed.

Lemma Result_accessors_exclusive_witness :
  result Result.error (Result.mkFields true (BigInt 5) (String "E") (String "m"))
  = Throw (Error "No error information is available").
Proof.
  apply (Result_accessors_exclusive
           (Result.mkFields true (BigInt 5) (String "E") (String "m"))
           (BigInt 5)).
  reflexivity.
Defined.

(** X4: the stored message cannot be read back. On any instance and
    with any room on the stack, [message] never returns a value; and
    two instances that differ in [#message] only are told apart by no
    accessor. *)
Theorem Result_message_unobservable :
  (forall (stack : nat) (this : Result.Fields) (v : Value),
     result (Result.message stack) this <> Normal v) /\
  (forall (a : Result.Accessor) (this : Result.Fields) (m : Value),
     result (Result.access a) (Result.set_message m this)
     = result (Result.access a) this).
Proof.
  split.
  - intros stack this v. run_accessors. by destruct (Result.f_isOK this).
  - intros [| | |stack] this m; unfold Result.access; run_accessors;
      reflexivity.
Qed.

(** X5: construction reads the input's [payload], [error] and
    [message] properties and nothing else: two inputs that agree on
    these three build the same instance or throw alike; and when both
    have the same [payload] property, they build the same instance
    whatever their other properties are. *)
Theorem Result_construct_reads_three_keys (args args' : Obj) :
  (args !! "payload" = args' !! "payload" ->
   args !! "error" = args' !! "error" ->
   args !! "message" = args' !! "message" ->
   Result.construct args = Result.construct args') /\
  (forall p, args !! "payload" = Some p -> args' !! "payload" = Some p ->
   Result.construct args = Result.construct args').
Proof.
  split.
  - intros Hp He Hm.
    unfold Result.construct, Result.constructor, has_property, get.
    by rewrite Hp, He, Hm.
  - intros p Hp Hp'.
    by rewrite (ResultFacts.construct_success _ _ Hp),
      (ResultFacts.construct_success _ _ Hp').
Qed.

Lemma Result_construct_reads_three_keys_witness :
  Result.construct {[ "error" := String "E"; "code" := BigInt 7 ]}
  = Result.construct {[ "error" := String "E" ]} /\
  Result.construct {[ "payload" := Boolean true; "error" := String "E" ]}
  = Result.construct {[ "payload" := Boolean true; "message" := Null ]}.
Proof.
  split.
  - apply (Result_construct_reads_three_keys
             {[ "error" := String "E"; "code" := BigInt 7 ]}
             {[ "error" := String "E" ]}); reflexivity.
  - apply (proj2 (Result_construct_reads_three_keys
                    {[ "payload" := Boolean true; "error" := String "E" ]}
                    {[ "payload" := Boolean true; "message" := Null ]})
             (Boolean true)); reflexivity.
Defined.

(** X6: what [payload] returns can be wrapped again: when [payload]
    returns [v] on an instance built from any input,
    [new Result({payload: v})] builds an equal instance; and when
    [error] returns [e], so does a new Result built from [e] and the
    stored message. *)
Theorem Result_rewrap (args : Obj) (r : Result.Fields) (v : Value) :
  Result.construct args = Normal r ->
  (result Result.payload r = Normal v ->
   Result.construct (Result.success_input v) = Normal r) /\
  (result Result.error r = Normal v ->
   Result.construct {[ "error" := v; "message" := Result.f_message r ]}
   = Normal r).
Proof.
  intros Hr.
  destruct (ResultFacts.construct_cases args) as [p Hp|e Hp He|Hp He];
    [injection Hr as <- .. | discriminate Hr]; run_accessors.
  - split; [|discriminate].
    destruct (ToBoolean p); [|discriminate]. intros [= <-].
    apply InputFacts.construct_success_input.
  - split; [discriminate|].
    destruct (ToBoolean e); [|discriminate]. intros [= <-].
    rewrite (ResultFacts.construct_failure _ e); [|by simplify_map_eq..].
    unfold Result.stored_message. by simplify_map_eq.
Qed.

Lemma Result_rewrap_witness :
  Result.construct (Result.success_input (String "p"))
  = Normal (Result.mkFields true (String "p") Undefined (String "")).
Proof.
  apply (Result_rewrap
           {[ "payload" := String "p"; "error" := String "E" ]}
           _ (String "p")); reflexivity.
Defined.

(** X7: on an Option built from any value, [payload] returns exactly
    when [isSome] is true, what it returns is the value given to the
    constructor, and that is never [undefined] nor [null]; otherwise it
    throws ["No payload provided or null"]. *)
Theorem Option_payload_never_absent (v : Value) (o : Option.Fields) :
  Option.construct v = Normal o ->
  (forall w, result Option.payload o = Normal w ->
   w = v /\ w <> Undefined /\ w <> Null) /\
  (result Option.isSome o = Normal true
   <-> exists w, result Option.payload o = Normal w) /\
  (forall exn, result Option.payload o = Throw exn ->
   exn = Error "No payload provided or null").
Proof.
  rewrite OptionFacts.construct_run. intros [= <-]. run_option_accessors.
  destruct v as [| | | | | | |addr callable]; (split; [|split]);
    try discriminate;
    try (intros w [= <-]; repeat split; discriminate);
    try (split; [discriminate | intros [w Hw]; discriminate Hw]);
    try (split; [eauto | reflexivity]);
    by intros exn [= <-].
Qed.

Lemma Option_payload_never_absent_witness :
  result Option.isSome (Option.mkFields true (Boolean false)) = Normal true.
Proof.
  apply (Option_payload_never_absent (Boolean false)
           (Option.mkFields true (Boolean false))); [reflexivity|].
  exists (Boolean false). reflexivity.
Defined.

(** X8: unwrapping and wrapping again changes nothing: on an Option
    built from any value, [new Option(o.unwrap())] builds an equal
    instance, a None included. *)
Theorem Option_rewrap (v : Value) (o : Option.Fields) :
  Option.construct v = Normal o ->
  exists w, result Option.unwrap o = Normal w /\ Option.construct w = Normal o.
Proof.
  rewrite OptionFacts.construct_run. intros [= <-].
  eexists. split; [reflexivity|]. apply OptionFacts.construct_run.
Qed.

Lemma Option_rewrap_witness :
  exists w, result Option.unwrap (Option.mkFields false Null) = Normal w /\
    Option.construct w = Normal (Option.mkFields false Null).
Proof.
  apply (Option_rewrap Null). reflexivity.
Defined.
